(** * VsyncSchedule: the hardware-vsync state machine and the predicted-vsync tracer

    A shallow embedding of
    [services/surfaceflinger/Scheduler/VsyncSchedule.cpp].

    The schedule talks to four collaborators that live outside that file: the
    tracker ([VsyncTracker]), the dispatch ([VsyncDispatch], through a
    [VSyncCallbackRegistration]), the controller ([VSyncReactor]) and the
    injected [ISchedulerCallback].  Every call the code makes on one of them is
    recorded, in program order, in a log of [Call]s; the schedule's own fields
    are threaded as explicit state.  A member function of the C++ class is a
    computation in the monad [M], which carries the object and the log.

    Every state-machine operation runs under [std::lock_guard] on
    [mHwVsyncLock] for its whole body, so each one is a single atomic step and
    the sequential model below describes the serialised executions. *)

From Stdlib Require Import List Bool ZArith String Arith.
Import ListNotations.
Open Scope Z_scope.

(** ** Shared vocabulary *)

(** [PhysicalDisplayId] is an opaque integer identifier. *)
Definition PhysicalDisplayId : Type := Z.

(** [nsecs_t] is a signed 64-bit count of nanoseconds. *)
Definition nsecs_t : Type := Z.

(** An [ISchedulerCallback&] argument: the identity of the object passed in. *)
Definition CallbackRef : Type := nat.

(** The features the file tests on its [FeatureFlags] argument. *)
Inductive Feature : Type :=
| kPresentFences
| kKernelIdleTimer
| kTracePredictedVsync.

(** The argument of [VSyncCallbackRegistration::schedule], built in the source
    by the aggregate [{0, 0, 0}]. *)
Record ScheduleTiming : Type := mkScheduleTiming {
  workDuration : nsecs_t;
  readyDuration : nsecs_t;
  earliestVsync : nsecs_t
}.

(** Calls made on the collaborators.  A constructor call records the display
    id and the constants it is given; the name [to_string(id)] is represented
    by [id], and the objects handed over with it (the [Timer], the
    [SystemClock], the tracker) are not repeated. *)
Inductive Call : Type :=
| Tracker_resetModel
| Callback_setVsyncEnabled (callback : CallbackRef) (id : PhysicalDisplayId)
                           (enabled : bool)
| Registration_new (name : string)
| Registration_schedule (timing : ScheduleTiming)
| VSyncPredictor_new (id : PhysicalDisplayId) (idealPeriod : nsecs_t)
                     (historySize minSamples outlierPercent : Z)
| VSyncDispatchTimerQueue_new (groupDispatchWithin snapToSameVsyncWithin : nsecs_t)
| VSyncReactor_new (id : PhysicalDisplayId) (maxPendingFences : Z)
                   (hasKernelIdleTimer : bool)
| Reactor_setIgnorePresentFences (ignore : bool).

Definition is_setVsyncEnabled (c : Call) : bool :=
  match c with Callback_setVsyncEnabled _ _ _ => true | _ => false end.

Definition is_resetModel (c : Call) : bool :=
  match c with Tracker_resetModel => true | _ => false end.

Definition is_schedule (c : Call) : bool :=
  match c with Registration_schedule _ => true | _ => false end.

Definition is_setIgnorePresentFences (c : Call) : bool :=
  match c with Reactor_setIgnorePresentFences _ => true | _ => false end.

Definition count (p : Call -> bool) (cs : list Call) : nat :=
  List.length (filter p cs).

(** ** The monad of member functions: object state plus call log *)

Definition M (St A : Type) : Type := St -> A * St * list Call.

Definition ret {St A} (a : A) : M St A := fun s => (a, s, []).

Definition bind {St A B} (m : M St A) (k : A -> M St B) : M St B :=
  fun s =>
    let '(a, s1, c1) := m s in
    let '(b, s2, c2) := k a s1 in
    (b, s2, c1 ++ c2).

Definition get {St} : M St St := fun s => (s, s, []).
Definition put {St} (s' : St) : M St unit := fun _ => (tt, s', []).
Definition call {St} (c : Call) : M St unit := fun s => (tt, s, [c]).

(** [listen m] runs [m] and also hands back the calls [m] made. *)
Definition listen {St A} (m : M St A) : M St (A * list Call) :=
  fun s => let '(a, s1, c1) := m s in ((a, c1), s1, c1).

Notation "x <- m ;; k" := (bind m (fun x => k))
  (at level 61, m at next level, right associativity).
Notation "m ;; k" := (bind m (fun _ => k))
  (at level 61, right associativity).

Definition result {St A} (r : A * St * list Call) : A := fst (fst r).
Definition state {St A} (r : A * St * list Call) : St := snd (fst r).
Definition calls {St A} (r : A * St * list Call) : list Call := snd r.

Fixpoint mapM {St A B} (f : A -> M St B) (l : list A) : M St (list B) :=
  match l with
  | [] => ret []
  | a :: l' => b <- f a ;; bs <- mapM f l' ;; ret (b :: bs)
  end.

(** ** class VsyncSchedule::PredictedVsyncTracer *)

Module PredictedVsyncTracer.

(** [mRegistration] is a handle on the dispatch; what is done through it is
    in the call log.  [mParity] is a [TracedOrdinal<bool>]. *)
Record t : Type := mk { mParity : bool }.

(** [void schedule() { mRegistration.schedule({0, 0, 0}); }] *)
Definition schedule : M t unit :=
  call (Registration_schedule (mkScheduleTiming 0 0 0)).

(** The lambda returned by [makeVsyncCallback]: its three [nsecs_t]
    parameters are unnamed. *)
Definition vsyncCallback (_ _ _ : nsecs_t) : M t unit :=
  self <- get ;;
  put (mk (negb (mParity self))) ;;
  schedule.

(** The constructor: [mParity] starts at [0], the registration is created
    under the name [__func__], and the body calls [schedule()]. *)
Definition new : t * list Call :=
  let self := mk false in
  let '(_, self', cs) := schedule self in
  (self', Registration_new "PredictedVsyncTracer" :: cs).

(** One invocation by the dispatch, with its three timestamps. *)
Definition invoke (args : nsecs_t * nsecs_t * nsecs_t) : M t unit :=
  let '(a, b, c) := args in vsyncCallback a b c.

(** Successive invocations, one per element of [argss]. *)
Definition invokeAll (argss : list (nsecs_t * nsecs_t * nsecs_t)) : M t unit :=
  _ <- mapM invoke argss ;; ret tt.

End PredictedVsyncTracer.

(** ** class VsyncSchedule *)

Module VsyncSchedule.

Inductive HwVsyncState : Type :=
| Enabled
| Disabled
| Disallowed.

Definition HwVsyncState_eqb (a b : HwVsyncState) : bool :=
  match a, b with
  | Enabled, Enabled | Disabled, Disabled | Disallowed, Disallowed => true
  | _, _ => false
  end.

(** The fields the state machine reads and writes.  [mTracker], [mDispatch]
    and [mController] are owning pointers to collaborators, [mTracer] is
    kept apart (see [construct]). *)
Record t : Type := mk {
  mId : PhysicalDisplayId;
  mHwVsyncState : HwVsyncState;
  mLastHwVsyncState : HwVsyncState
}.

Definition set_mHwVsyncState (v : HwVsyncState) : M t unit :=
  fun self => (tt, mk (mId self) v (mLastHwVsyncState self), []).

Definition set_mLastHwVsyncState (v : HwVsyncState) : M t unit :=
  fun self => (tt, mk (mId self) (mHwVsyncState self) v, []).

(** [void VsyncSchedule::enableHardwareVsync(ISchedulerCallback& callback)] *)
Definition enableHardwareVsync (callback : CallbackRef) : M t unit :=
  self <- get ;;
  if HwVsyncState_eqb (mHwVsyncState self) Disabled then
    call Tracker_resetModel ;;
    call (Callback_setVsyncEnabled callback (mId self) true) ;;
    set_mHwVsyncState Enabled ;;
    set_mLastHwVsyncState Enabled
  else ret tt.

(** [void VsyncSchedule::disableHardwareVsync(ISchedulerCallback& callback,
    bool disallow)] *)
Definition disableHardwareVsync (callback : CallbackRef) (disallow : bool)
  : M t unit :=
  self <- get ;;
  (if HwVsyncState_eqb (mHwVsyncState self) Enabled then
     call (Callback_setVsyncEnabled callback (mId self) false) ;;
     set_mLastHwVsyncState Disabled
   else ret tt) ;;
  set_mHwVsyncState (if disallow then Disallowed else Disabled).

(** [bool VsyncSchedule::isHardwareVsyncAllowed() const] *)
Definition isHardwareVsyncAllowed : M t bool :=
  self <- get ;;
  ret (negb (HwVsyncState_eqb (mHwVsyncState self) Disallowed)).

(** [void VsyncSchedule::allowHardwareVsync()] *)
Definition allowHardwareVsync : M t unit :=
  self <- get ;;
  if HwVsyncState_eqb (mHwVsyncState self) Disallowed then
    set_mHwVsyncState Disabled
  else ret tt.

(** *** Sequences of state-machine calls *)

Inductive Op : Type :=
| OpEnable (callback : CallbackRef)
| OpDisable (callback : CallbackRef) (disallow : bool)
| OpAllow
| OpIsAllowed.

Definition step (op : Op) : M t unit :=
  match op with
  | OpEnable cb => enableHardwareVsync cb
  | OpDisable cb d => disableHardwareVsync cb d
  | OpAllow => allowHardwareVsync
  | OpIsAllowed => _ <- isHardwareVsyncAllowed ;; ret tt
  end.

Fixpoint run (ops : list Op) : M t unit :=
  match ops with
  | [] => ret tt
  | op :: ops' => step op ;; run ops'
  end.

(** The current state before the first call and after each call of [ops]. *)
Fixpoint visited (ops : list Op) (self : t) : list HwVsyncState :=
  mHwVsyncState self ::
  match ops with
  | [] => []
  | op :: ops' => visited ops' (state (step op self))
  end.

Definition is_edge (a b : HwVsyncState) : bool :=
  match a, b with
  | Disabled, Enabled | Enabled, Disabled => true
  | _, _ => false
  end.

Definition is_enabling (a b : HwVsyncState) : bool :=
  match a, b with
  | Disabled, Enabled => true
  | _, _ => false
  end.

(** Number of neighbours [a], [b] of a list of states that [e a b] holds
    of. *)
Fixpoint crossings (e : HwVsyncState -> HwVsyncState -> bool)
                   (l : list HwVsyncState) : nat :=
  match l with
  | a :: ((b :: _) as l') => ((if e a b then 1 else 0) + crossings e l')%nat
  | _ => 0%nat
  end.

(** Number of [Disabled]-[Enabled] edges crossed, in either direction. *)
Definition edges : list HwVsyncState -> nat := crossings is_edge.

(** Number of [Disabled]-to-[Enabled] transitions. *)
Definition enablings : list HwVsyncState -> nat := crossings is_enabling.

Definition enable_or_plain_disable (op : Op) : Prop :=
  match op with
  | OpEnable _ | OpDisable _ false => True
  | _ => False
  end.

(** [reachable s0 s]: some sequence of calls takes [s0] to [s]. *)
Definition reachable (s0 s : t) : Prop :=
  exists ops, state (run ops s0) = s.

(** [probe m] runs [m] and reports the calls it made together with what
    [isHardwareVsyncAllowed()] answers right after it. *)
Definition probe (m : M t unit) : M t (list Call * bool) :=
  r <- listen m ;;
  allowed <- isHardwareVsyncAllowed ;;
  ret (snd r, allowed).

Definition scenario (cb : CallbackRef) : M t (list (list Call * bool)) :=
  mapM probe
    [ enableHardwareVsync cb;
      disableHardwareVsync cb false;
      disableHardwareVsync cb true;
      enableHardwareVsync cb;
      allowHardwareVsync;
      enableHardwareVsync cb ].

(** *** Queries answered by the tracker *)

(** The part of the [VsyncTracker] interface the file calls through
    [mTracker]: two const queries and [resetModel()]. *)
Class VsyncTracker (T : Type) : Type := {
  currentPeriod : T -> nsecs_t;
  nextAnticipatedVSyncTimeFrom : T -> nsecs_t -> nsecs_t;
  resetModel : T -> T
}.

(** [Period] and [TimePoint] wrap a count of nanoseconds ([fromNs], [ns()]). *)
Record Period : Type := Period_fromNs { Period_ns : nsecs_t }.
Record TimePoint : Type := TimePoint_fromNs { TimePoint_ns : nsecs_t }.

(** [Period VsyncSchedule::period() const] *)
Definition period {T} `{VsyncTracker T} (mTracker : T) : Period :=
  Period_fromNs (currentPeriod mTracker).

(** [TimePoint VsyncSchedule::vsyncDeadlineAfter(TimePoint timePoint) const] *)
Definition vsyncDeadlineAfter {T} `{VsyncTracker T} (mTracker : T)
           (timePoint : TimePoint) : TimePoint :=
  TimePoint_fromNs (nextAnticipatedVSyncTimeFrom mTracker (TimePoint_ns timePoint)).

(** The tracker once the calls of a log have been made on it. *)
Definition replay {T} `{VsyncTracker T} (cs : list Call) (mTracker : T) : T :=
  fold_left (fun tracker c =>
               match c with
               | Tracker_resetModel => resetModel tracker
               | _ => tracker
               end) cs mTracker.

(** *** What a sequence of calls determines *)

(** The answer of [isHardwareVsyncAllowed()] as the calls of [ops] leave it,
    from the answer before them. *)
Definition allowed_after (ops : list Op) (before : bool) : bool :=
  fold_left (fun allowed op =>
               match op with
               | OpDisable _ disallow => negb disallow
               | OpAllow => true
               | OpEnable _ | OpIsAllowed => allowed
               end) ops before.

(** Calls that cannot leave [Disallowed]. *)
Definition keeps_Disallowed (op : Op) : Prop :=
  match op with
  | OpEnable _ | OpDisable _ true | OpIsAllowed => True
  | OpDisable _ false | OpAllow => False
  end.

(** [explained id ops c]: the call [c] is one the state machine makes for a
    call of [ops] on the schedule of display [id]. *)
Definition explained (id : PhysicalDisplayId) (ops : list Op) (c : Call) : Prop :=
  match c with
  | Tracker_resetModel => exists cb, In (OpEnable cb) ops
  | Callback_setVsyncEnabled cb id' true => id' = id /\ In (OpEnable cb) ops
  | Callback_setVsyncEnabled cb id' false =>
      id' = id /\ exists disallow, In (OpDisable cb disallow) ops
  | _ => False
  end.


(** The shape of the states a schedule that starts as [mk id Disabled last0]
    can be in: the display id is kept; the last-observed field is [Enabled]
    with the current state [Enabled], and [last0] or [Disabled] otherwise. *)
Definition reachable_shape (id : PhysicalDisplayId) (last0 : HwVsyncState)
           (s : t) : Prop :=
  mId s = id
  /\ match mHwVsyncState s with
     | Enabled => mLastHwVsyncState s = Enabled
     | Disabled | Disallowed =>
         mLastHwVsyncState s = last0 \/ mLastHwVsyncState s = Disabled
     end.

(** *** Construction *)

(** Modelled from the spec: the default member initialiser of
    [mHwVsyncState] is written in VsyncSchedule.h, which is not among the
    sources.  The spec's scenario has the first [enableHardwareVsync] on a
    fresh schedule reach the hardware, which the code does from [Disabled]
    only. *)
Definition kInitialHwVsyncState : HwVsyncState := Disabled.

Section Construction.

(** [ftl::Flags<Feature>] and its [test] are declared outside the file. *)
Variable FeatureFlags : Type.
Variable test : FeatureFlags -> Feature -> bool.

(** [(60_Hz).getPeriodNsecs()], computed by [Fps]. *)
Variable kInitialPeriod : nsecs_t.

(** The default member initialiser of [mLastHwVsyncState], also written
    in the header. *)
Variable kInitialLastHwVsyncState : HwVsyncState.

Definition createTracker (id : PhysicalDisplayId) : list Call :=
  let kHistorySize := 20 in
  let kMinSamplesForPrediction := 6 in
  let kDiscardOutlierPercent := 20 in
  [VSyncPredictor_new id kInitialPeriod kHistorySize
                      kMinSamplesForPrediction kDiscardOutlierPercent].

(** [createDispatch(TrackerPtr tracker)]: the tracker is the one just
    created; [500us] and [3ms] are passed as nanosecond counts. *)
Definition createDispatch : list Call :=
  let kGroupDispatchWithin := 500 * 1000 in
  let kSnapToSameVsyncWithin := 3 * 1000000 in
  [VSyncDispatchTimerQueue_new kGroupDispatchWithin kSnapToSameVsyncWithin].

Definition createController (id : PhysicalDisplayId) (features : FeatureFlags)
  : list Call :=
  let kMaxPendingFences := 20 in
  let hasKernelIdleTimer := test features kKernelIdleTimer in
  [VSyncReactor_new id kMaxPendingFences hasKernelIdleTimer;
   Reactor_setIgnorePresentFences (negb (test features kPresentFences))].

(** [VsyncSchedule(PhysicalDisplayId, TrackerPtr, DispatchPtr,
    ControllerPtr)]: the collaborators come ready-made, no tracer. *)
Definition inject (id : PhysicalDisplayId) : t :=
  mk id kInitialHwVsyncState kInitialLastHwVsyncState.

(** [VsyncSchedule(PhysicalDisplayId, FeatureFlags)]: the schedule, its
    tracer if any, and the calls made while constructing. *)
Definition construct (id : PhysicalDisplayId) (features : FeatureFlags)
  : t * option PredictedVsyncTracer.t * list Call :=
  let self := mk id kInitialHwVsyncState kInitialLastHwVsyncState in
  let cs := createTracker id ++ createDispatch ++ createController id features in
  if test features kTracePredictedVsync then
    let '(tracer, cs') := PredictedVsyncTracer.new in
    (self, Some tracer, cs ++ cs')
  else (self, None, cs).

End Construction.

End VsyncSchedule.

(** A concrete [FeatureFlags]: the list of the features that are set. *)
Definition Feature_eqb (a b : Feature) : bool :=
  match a, b with
  | kPresentFences, kPresentFences
  | kKernelIdleTimer, kKernelIdleTimer
  | kTracePredictedVsync, kTracePredictedVsync => true
  | _, _ => false
  end.

Definition listed (features : list Feature) (f : Feature) : bool :=
  existsb (Feature_eqb f) features.

(** ** Reading a call log *)

(** The [enabled] arguments of the [setVsyncEnabled] calls of a log, in
    order. *)
Definition setVsyncEnabled_args (cs : list Call) : list bool :=
  flat_map (fun c =>
              match c with
              | Callback_setVsyncEnabled _ _ enabled => [enabled]
              | _ => []
              end) cs.

(** [alternating first l]: [l] is [first], [negb first], [first], ... *)
Fixpoint alternating (first : bool) (l : list bool) : bool :=
  match l with
  | [] => true
  | b :: l' => Bool.eqb b first && alternating (negb first) l'
  end.

(** What the hardware was told last: the argument of the last
    [setVsyncEnabled] of the log, or [before] if there is none. *)
Definition hardware_after (before : bool) (cs : list Call) : bool :=
  fold_left (fun on c =>
               match c with
               | Callback_setVsyncEnabled _ _ enabled => enabled
               | _ => on
               end) cs before.

(** [paired cs]: the log is made of the blocks [resetModel;
    setVsyncEnabled(true)] and [setVsyncEnabled(false)] only. *)
Fixpoint paired (cs : list Call) : bool :=
  match cs with
  | [] => true
  | Tracker_resetModel :: Callback_setVsyncEnabled _ _ true :: cs' => paired cs'
  | Callback_setVsyncEnabled _ _ false :: cs' => paired cs'
  | _ => false
  end.

(** A tracker for examples: a period and the number of samples it holds;
    [resetModel] drops the samples and returns to the ideal period. *)
Record ToyTracker : Type := mkToy {
  toy_ideal : nsecs_t;
  toy_period : nsecs_t;
  toy_samples : nat
}.

#[export] Instance ToyTracker_VsyncTracker : VsyncSchedule.VsyncTracker ToyTracker := {
  currentPeriod tr := toy_period tr;
  nextAnticipatedVSyncTimeFrom tr from := from + toy_period tr;
  resetModel tr := mkToy (toy_ideal tr) (toy_ideal tr) 0
}.

(** * Properties *)

Import VsyncSchedule.

(** ** The monad's projections *)

Lemma state_bind {St A B} (m : M St A) (k : A -> M St B) (s : St) :
  state (bind m k s) = state (k (result (m s)) (state (m s))).
Proof.
  unfold bind, state, result.
  destruct (m s) as [[a s1] c1]; cbn.
  destruct (k a s1) as [[b s2] c2]; reflexivity.
Qed.

Lemma calls_bind {St A B} (m : M St A) (k : A -> M St B) (s : St) :
  calls (bind m k s) = calls (m s) ++ calls (k (result (m s)) (state (m s))).
Proof.
  unfold bind, calls, state, result.
  destruct (m s) as [[a s1] c1]; cbn.
  destruct (k a s1) as [[b s2] c2]; reflexivity.
Qed.

Lemma count_app (p : Call -> bool) (xs ys : list Call) :
  count p (xs ++ ys) = (count p xs + count p ys)%nat.
Proof. unfold count. now rewrite filter_app, length_app. Qed.

(** ** One call at a time *)

(** Splits a schedule into its fields and its current state into the three
    cases of the enumeration. *)
Ltac by_state self :=
  let id := fresh "id" in
  let last := fresh "last" in
  destruct self as [id [] last].

Lemma enableHardwareVsync_eq (cb : CallbackRef) (self : t) :
  enableHardwareVsync cb self =
  match mHwVsyncState self with
  | Disabled =>
      (tt, mk (mId self) Enabled Enabled,
       [Tracker_resetModel; Callback_setVsyncEnabled cb (mId self) true])
  | Enabled | Disallowed => (tt, self, [])
  end.
Proof. by_state self; reflexivity. Qed.

Lemma disableHardwareVsync_eq (cb : CallbackRef) (disallow : bool) (self : t) :
  disableHardwareVsync cb disallow self =
  (tt,
   mk (mId self)
      (if disallow then Disallowed else Disabled)
      (match mHwVsyncState self with
       | Enabled => Disabled
       | Disabled | Disallowed => mLastHwVsyncState self
       end),
   match mHwVsyncState self with
   | Enabled => [Callback_setVsyncEnabled cb (mId self) false]
   | Disabled | Disallowed => []
   end).
Proof. by_state self; reflexivity. Qed.

Lemma allowHardwareVsync_eq (self : t) :
  allowHardwareVsync self =
  (tt,
   mk (mId self)
      (match mHwVsyncState self with
       | Disallowed => Disabled
       | Enabled => Enabled
       | Disabled => Disabled
       end)
      (mLastHwVsyncState self),
   []).
Proof. by_state self; reflexivity. Qed.

Lemma isHardwareVsyncAllowed_eq (self : t) :
  isHardwareVsyncAllowed self =
  (match mHwVsyncState self with
   | Disallowed => false
   | Enabled | Disabled => true
   end, self, []).
Proof. by_state self; reflexivity. Qed.

Lemma step_mId (op : Op) (self : t) : mId (state (step op self)) = mId self.
Proof. destruct op as [cb|cb []| |]; by_state self; reflexivity. Qed.

Lemma run_cons (op : Op) (ops : list Op) (self : t) :
  state (run (op :: ops) self) = state (run ops (state (step op self)))
  /\ calls (run (op :: ops) self)
     = calls (step op self) ++ calls (run ops (state (step op self))).
Proof.
  cbn [run]. now rewrite state_bind, calls_bind.
Qed.

Lemma visited_head (ops : list Op) (self : t) :
  exists rest, visited ops self = mHwVsyncState self :: rest.
Proof. destruct ops; cbn; eauto. Qed.

(** ** The Disallowed state *)

(** C1, as stated, fails: on a schedule that [disableHardwareVsync(cb, true)]
    has put in [Disallowed], the call [disableHardwareVsync(cb, false)] makes
    the current state [Disabled] and [isHardwareVsyncAllowed()] true again,
    with no [allowHardwareVsync()] in between. *)
Lemma C1_disable_exits_Disallowed :
  let s0 := mk 7 Disabled Disabled in
  let s := state (disableHardwareVsync 0%nat true s0) in
  reachable s0 s
  /\ mHwVsyncState s = Disallowed
  /\ mHwVsyncState (state (disableHardwareVsync 0%nat false s)) = Disabled
  /\ mHwVsyncState (state (disableHardwareVsync 0%nat false s)) <> Disallowed
  /\ result (isHardwareVsyncAllowed (state (disableHardwareVsync 0%nat false s)))
     = true.
Proof.
  cbn. repeat split; try discriminate.
  exists [OpDisable 0%nat true]. reflexivity.
Qed.

(** C1, amended: in a state whose current value is [Disallowed],
    [enableHardwareVsync] and [disableHardwareVsync(cb, true)] change nothing
    and call nothing; [disableHardwareVsync(cb, false)] and
    [allowHardwareVsync()] call nothing either and set the current value to
    [Disabled]; and these two are the only calls after which the current
    value is no longer [Disallowed]. *)
Theorem C1_Disallowed_kept_by_enable_left_by_allow_and_plain_disable
  (self : t) (cb : CallbackRef) :
  mHwVsyncState self = Disallowed ->
  enableHardwareVsync cb self = (tt, self, [])
  /\ disableHardwareVsync cb true self = (tt, self, [])
  /\ disableHardwareVsync cb false self
     = (tt, mk (mId self) Disabled (mLastHwVsyncState self), [])
  /\ allowHardwareVsync self
     = (tt, mk (mId self) Disabled (mLastHwVsyncState self), [])
  /\ (forall op, calls (step op self) = [])
  /\ (forall op,
         mHwVsyncState (state (step op self)) <> Disallowed
         <-> op = OpAllow \/ exists cb', op = OpDisable cb' false).
Proof.
  destruct self as [id cur last]; cbn [mHwVsyncState]; intros ->.
  repeat split; try reflexivity.
  - intros [cb'|cb' []| |]; reflexivity.
  - destruct op as [cb'|cb' []| |]; cbn; intros H;
      solve [ now left | right; now exists cb' | now elim H ].
  - intros [->|[cb' ->]]; cbn; discriminate.
Qed.

Lemma C1_witness :
  let self := mk 7 Disallowed Enabled in
  enableHardwareVsync 3%nat self = (tt, self, [])
  /\ disableHardwareVsync 3%nat true self = (tt, self, [])
  /\ disableHardwareVsync 3%nat false self = (tt, mk 7 Disabled Enabled, [])
  /\ allowHardwareVsync self = (tt, mk 7 Disabled Enabled, [])
  /\ (forall op, calls (step op self) = [])
  /\ (forall op,
         mHwVsyncState (state (step op self)) <> Disallowed
         <-> op = OpAllow \/ exists cb', op = OpDisable cb' false).
Proof.
  exact (C1_Disallowed_kept_by_enable_left_by_allow_and_plain_disable
           (mk 7 Disallowed Enabled) 3%nat eq_refl).
Defined.

(** ** enableHardwareVsync and disableHardwareVsync *)

(** C2: [enableHardwareVsync(callback)] from [Disabled] resets the tracker's
    model, then calls [callback.setVsyncEnabled(mId, true)], and leaves both
    state fields at [Enabled]; from [Enabled] or [Disallowed] it calls nothing
    and leaves the object as it was.  So it changes something if and only if
    the current state is [Disabled]. *)
Theorem C2_enableHardwareVsync_acts_iff_Disabled (cb : CallbackRef) (self : t) :
  enableHardwareVsync cb self =
    match mHwVsyncState self with
    | Disabled =>
        (tt, mk (mId self) Enabled Enabled,
         [Tracker_resetModel; Callback_setVsyncEnabled cb (mId self) true])
    | Enabled | Disallowed => (tt, self, [])
    end
  /\ (state (enableHardwareVsync cb self) <> self
      \/ calls (enableHardwareVsync cb self) <> []
      <-> mHwVsyncState self = Disabled)
  /\ (mHwVsyncState self = Disabled
      <-> mHwVsyncState (state (enableHardwareVsync cb self)) = Enabled
          /\ mLastHwVsyncState (state (enableHardwareVsync cb self)) = Enabled
          /\ count is_resetModel (calls (enableHardwareVsync cb self)) = 1%nat
          /\ count is_setVsyncEnabled (calls (enableHardwareVsync cb self)) = 1%nat).
Proof.
  split; [apply enableHardwareVsync_eq|].
  rewrite enableHardwareVsync_eq.
  by_state self; cbn; split; split;
    try discriminate; try reflexivity; try tauto;
    try (intros [H|H]; now elim H);
    try (intros _; right; discriminate);
    try (intros (_ & _ & H & _); discriminate H);
    try (repeat split; reflexivity).
Qed.

(** C3: [disableHardwareVsync(callback, disallow)] calls
    [callback.setVsyncEnabled(mId, false)] and records [Disabled] as the
    last-observed state exactly when the current state is [Enabled]; whatever
    the prior state, the new current state is [Disallowed] if [disallow], else
    [Disabled]. *)
Theorem C3_disableHardwareVsync (cb : CallbackRef) (disallow : bool) (self : t) :
  disableHardwareVsync cb disallow self =
    (tt,
     mk (mId self)
        (if disallow then Disallowed else Disabled)
        (match mHwVsyncState self with
         | Enabled => Disabled
         | Disabled | Disallowed => mLastHwVsyncState self
         end),
     match mHwVsyncState self with
     | Enabled => [Callback_setVsyncEnabled cb (mId self) false]
     | Disabled | Disallowed => []
     end)
  /\ (calls (disableHardwareVsync cb disallow self) <> []
      <-> mHwVsyncState self = Enabled)
  /\ mHwVsyncState (state (disableHardwareVsync cb disallow self))
     = (if disallow then Disallowed else Disabled).
Proof.
  split; [apply disableHardwareVsync_eq|].
  rewrite disableHardwareVsync_eq.
  by_state self; cbn; repeat split;
    try discriminate; try reflexivity; try (intros H; now elim H).
Qed.

(** ** Sequences of calls *)

Lemma crossings_visited (e : HwVsyncState -> HwVsyncState -> bool)
      (op : Op) (ops : list Op) (self : t) :
  crossings e (visited (op :: ops) self)
  = ((if e (mHwVsyncState self) (mHwVsyncState (state (step op self)))
      then 1 else 0)
     + crossings e (visited ops (state (step op self))))%nat.
Proof.
  cbn [visited].
  destruct (visited_head ops (state (step op self))) as [rest ->].
  reflexivity.
Qed.

Lemma step_setVsyncEnabled_edge (op : Op) (self : t) :
  enable_or_plain_disable op ->
  count is_setVsyncEnabled (calls (step op self))
  = if is_edge (mHwVsyncState self) (mHwVsyncState (state (step op self)))
    then 1%nat else 0%nat.
Proof.
  destruct op as [cb|cb []| |]; cbn [enable_or_plain_disable];
    try contradiction; intros _; by_state self; reflexivity.
Qed.

Lemma step_resetModel_enabling (op : Op) (self : t) :
  count is_resetModel (calls (step op self))
  = if is_enabling (mHwVsyncState self) (mHwVsyncState (state (step op self)))
    then 1%nat else 0%nat.
Proof. destruct op as [cb|cb []| |]; by_state self; reflexivity. Qed.

Lemma run_resetModel_enablings (ops : list Op) (self : t) :
  count is_resetModel (calls (run ops self)) = enablings (visited ops self).
Proof.
  revert self; induction ops as [|op ops IH]; intros self; [reflexivity|].
  destruct (run_cons op ops self) as [_ ->].
  unfold enablings in *.
  now rewrite count_app, crossings_visited, IH, step_resetModel_enabling.
Qed.

(** C4: over any sequence of [enableHardwareVsync] and
    [disableHardwareVsync(cb, false)] calls, from any starting state, the
    number of [setVsyncEnabled] invocations equals the number of
    [Disabled]-[Enabled] edges the current state crosses; a call that leaves
    the current state where it was invokes nothing, and so does a call
    repeated right after itself. *)
Theorem C4_setVsyncEnabled_once_per_edge (ops : list Op) (self : t) :
  Forall enable_or_plain_disable ops ->
  count is_setVsyncEnabled (calls (run ops self)) = edges (visited ops self)
  /\ (forall op s, In op ops ->
        mHwVsyncState (state (step op s)) = mHwVsyncState s ->
        calls (step op s) = [])
  /\ (forall op s, In op ops ->
        step op (state (step op s)) = (tt, state (step op s), [])).
Proof.
  intros Hops; split; [|split].
  - revert self; induction Hops as [|op ops Hop _ IH]; intros self;
      [reflexivity|].
    destruct (run_cons op ops self) as [_ ->].
    unfold edges in *.
    now rewrite count_app, crossings_visited, IH, step_setVsyncEnabled_edge.
  - intros op s Hin. rewrite Forall_forall in Hops. specialize (Hops op Hin).
    destruct op as [cb|cb []| |]; cbn in Hops; try contradiction;
      by_state s; cbn; intros H; try reflexivity; discriminate H.
  - intros op s Hin. rewrite Forall_forall in Hops. specialize (Hops op Hin).
    destruct op as [cb|cb []| |]; cbn in Hops; try contradiction;
      by_state s; reflexivity.
Qed.

Lemma C4_witness :
  let ops := [OpEnable 1%nat; OpEnable 2%nat; OpDisable 1%nat false;
              OpDisable 1%nat false; OpEnable 2%nat] in
  let self := mk 7 Disabled Disabled in
  count is_setVsyncEnabled (calls (run ops self)) = edges (visited ops self)
  /\ (forall op s, In op ops ->
        mHwVsyncState (state (step op s)) = mHwVsyncState s ->
        calls (step op s) = [])
  /\ (forall op s, In op ops ->
        step op (state (step op s)) = (tt, state (step op s), [])).
Proof.
  apply (C4_setVsyncEnabled_once_per_edge
           [OpEnable 1%nat; OpEnable 2%nat; OpDisable 1%nat false;
            OpDisable 1%nat false; OpEnable 2%nat]
           (mk 7 Disabled Disabled)).
  repeat constructor.
Defined.

(** A run of five calls that crosses three edges and invokes the callback
    three times. *)
Example C4_run_counts :
  let ops := [OpEnable 1%nat; OpEnable 2%nat; OpDisable 1%nat false;
              OpDisable 1%nat false; OpEnable 2%nat] in
  let self := mk 7 Disabled Disabled in
  calls (run ops self)
  = [Tracker_resetModel; Callback_setVsyncEnabled 1%nat 7 true;
     Callback_setVsyncEnabled 1%nat 7 false;
     Tracker_resetModel; Callback_setVsyncEnabled 2%nat 7 true]
  /\ visited ops self = [Disabled; Enabled; Enabled; Disabled; Disabled; Enabled]
  /\ edges (visited ops self) = 3%nat.
Proof. cbn. repeat split. Qed.

(** With [disallow = true] in the sequence the count and the edges part: the
    callback is invoked on [Enabled]-to-[Disallowed], which is no
    [Disabled]-[Enabled] edge. *)
Example disallow_is_not_an_edge :
  let ops := [OpEnable 1%nat; OpDisable 1%nat true] in
  let self := mk 7 Disabled Disabled in
  count is_setVsyncEnabled (calls (run ops self)) = 2%nat
  /\ edges (visited ops self) = 1%nat.
Proof. cbn. split; reflexivity. Qed.

(** ** The scenario on a fresh schedule *)

(** C5: on the schedule built by the constructor from flags without
    [kTracePredictedVsync] (so without a tracer), the six calls
    enable, disable(false), disable(true), enable, allow, enable make these
    calls on the collaborators, step by step, each followed by the answer of
    [isHardwareVsyncAllowed()]: reset and [(id, true)], true; [(id, false)],
    true; nothing, false; nothing, false; nothing, true; reset and
    [(id, true)], true. *)
Theorem C5_scenario
  (FeatureFlags : Type) (test : FeatureFlags -> Feature -> bool)
  (kInitialPeriod : nsecs_t) (kInitialLastHwVsyncState : HwVsyncState)
  (id : PhysicalDisplayId) (features : FeatureFlags) (cb : CallbackRef) :
  test features kTracePredictedVsync = false ->
  let built :=
    construct FeatureFlags test kInitialPeriod kInitialLastHwVsyncState
              id features in
  let fresh := fst (fst built) in
  snd (fst built) = None
  /\ count is_setVsyncEnabled (snd built) = 0%nat
  /\ result (scenario cb fresh)
     = [ ([Tracker_resetModel; Callback_setVsyncEnabled cb id true], true);
         ([Callback_setVsyncEnabled cb id false], true);
         ([], false);
         ([], false);
         ([], true);
         ([Tracker_resetModel; Callback_setVsyncEnabled cb id true], true) ]
  /\ calls (scenario cb fresh)
     = [ Tracker_resetModel; Callback_setVsyncEnabled cb id true;
         Callback_setVsyncEnabled cb id false;
         Tracker_resetModel; Callback_setVsyncEnabled cb id true ]
  /\ state (scenario cb fresh) = mk id Enabled Enabled.
Proof.
  intros Hflag; unfold construct; rewrite Hflag; cbn.
  repeat split.
Qed.

Lemma C5_witness :
  let built := construct (list Feature) listed 16666666 Disabled
                         7 [kPresentFences] in
  let fresh := fst (fst built) in
  snd (fst built) = None
  /\ count is_setVsyncEnabled (snd built) = 0%nat
  /\ result (scenario 1%nat fresh)
     = [ ([Tracker_resetModel; Callback_setVsyncEnabled 1%nat 7 true], true);
         ([Callback_setVsyncEnabled 1%nat 7 false], true);
         ([], false);
         ([], false);
         ([], true);
         ([Tracker_resetModel; Callback_setVsyncEnabled 1%nat 7 true], true) ]
  /\ calls (scenario 1%nat fresh)
     = [ Tracker_resetModel; Callback_setVsyncEnabled 1%nat 7 true;
         Callback_setVsyncEnabled 1%nat 7 false;
         Tracker_resetModel; Callback_setVsyncEnabled 1%nat 7 true ]
  /\ state (scenario 1%nat fresh) = mk 7 Enabled Enabled.
Proof.
  exact (C5_scenario (list Feature) listed 16666666 Disabled
                     7 [kPresentFences] 1%nat eq_refl).
Defined.

(** ** The tracker's model *)

(** C6: [enableHardwareVsync] calls [resetModel] once when the current state
    is [Disabled], and then before [setVsyncEnabled]; it does not call it
    otherwise, and [disableHardwareVsync], [allowHardwareVsync] and
    [isHardwareVsyncAllowed] never do.  Over a sequence of calls the number of
    resets is the number of [Disabled]-to-[Enabled] transitions. *)
Theorem C6_resetModel_only_on_enabling (cb : CallbackRef) (self : t) :
  calls (enableHardwareVsync cb self)
  = (if HwVsyncState_eqb (mHwVsyncState self) Disabled
     then [Tracker_resetModel; Callback_setVsyncEnabled cb (mId self) true]
     else [])
  /\ mHwVsyncState (state (enableHardwareVsync cb self))
     = (if HwVsyncState_eqb (mHwVsyncState self) Disabled
        then Enabled else mHwVsyncState self)
  /\ (forall disallow,
        count is_resetModel (calls (disableHardwareVsync cb disallow self))
        = 0%nat)
  /\ count is_resetModel (calls (allowHardwareVsync self)) = 0%nat
  /\ count is_resetModel (calls (isHardwareVsyncAllowed self)) = 0%nat
  /\ (forall ops,
        count is_resetModel (calls (run ops self))
        = enablings (visited ops self)).
Proof.
  split; [by_state self; reflexivity|].
  split; [by_state self; reflexivity|].
  split; [intros []; by_state self; reflexivity|].
  split; [by_state self; reflexivity|].
  split; [by_state self; reflexivity|].
  intros ops; apply run_resetModel_enablings.
Qed.

(** ** allowHardwareVsync *)

(** C7: [allowHardwareVsync()] takes [Disallowed] to [Disabled] and leaves
    [Disabled] and [Enabled] alone; it makes no call on the callback or the
    tracker and does not write [mLastHwVsyncState]. *)
Theorem C7_allowHardwareVsync (self : t) :
  allowHardwareVsync self =
    (tt,
     mk (mId self)
        (match mHwVsyncState self with
         | Disallowed => Disabled
         | Enabled => Enabled
         | Disabled => Disabled
         end)
        (mLastHwVsyncState self),
     [])
  /\ (mHwVsyncState self <> Disallowed ->
      allowHardwareVsync self = (tt, self, [])).
Proof.
  split; [apply allowHardwareVsync_eq|].
  by_state self; cbn; intros H; try reflexivity; now elim H.
Qed.

(** ** The last-observed state *)

(** C8: if [mLastHwVsyncState] does not start at [Disallowed], no sequence of
    calls makes it [Disallowed]; a call writes it only in two places:
    [Enabled] when [enableHardwareVsync] runs from [Disabled], [Disabled] when
    [disableHardwareVsync] runs from [Enabled]. *)
Theorem C8_last_state_never_Disallowed (s0 s : t) :
  mLastHwVsyncState s0 <> Disallowed ->
  reachable s0 s ->
  mLastHwVsyncState s <> Disallowed
  /\ (forall op,
        mLastHwVsyncState (state (step op s))
        = match op, mHwVsyncState s with
          | OpEnable _, Disabled => Enabled
          | OpDisable _ _, Enabled => Disabled
          | _, _ => mLastHwVsyncState s
          end)
  /\ (forall cb,
        mLastHwVsyncState (state (disableHardwareVsync cb true s))
        = match mHwVsyncState s with
          | Enabled => Disabled
          | Disabled | Disallowed => mLastHwVsyncState s
          end).
Proof.
  intros H0 [ops <-]. split; [|split].
  - revert s0 H0; induction ops as [|op ops IH]; intros s0 H0; [exact H0|].
    destruct (run_cons op ops s0) as [-> _]. apply IH.
    destruct op as [cb|cb []| |]; by_state s0; cbn in *;
      solve [ exact H0 | discriminate ].
  - intros op. generalize (state (run ops s0)); intros s.
    destruct op as [cb|cb []| |]; by_state s; reflexivity.
  - intros cb. generalize (state (run ops s0)); intros s.
    by_state s; reflexivity.
Qed.

Lemma C8_witness :
  let s0 := mk 7 Disabled Disabled in
  let s := mk 7 Disallowed Disabled in
  mLastHwVsyncState s <> Disallowed
  /\ (forall op,
        mLastHwVsyncState (state (step op s))
        = match op, mHwVsyncState s with
          | OpEnable _, Disabled => Enabled
          | OpDisable _ _, Enabled => Disabled
          | _, _ => mLastHwVsyncState s
          end)
  /\ (forall cb,
        mLastHwVsyncState (state (disableHardwareVsync cb true s))
        = match mHwVsyncState s with
          | Enabled => Disabled
          | Disabled | Disallowed => mLastHwVsyncState s
          end).
Proof.
  apply (C8_last_state_never_Disallowed
           (mk 7 Disabled Disabled) (mk 7 Disallowed Disabled)).
  - discriminate.
  - exists [OpEnable 1%nat; OpDisable 1%nat true]. reflexivity.
Defined.

(** ** The predicted-vsync tracer *)

Lemma invokeAll_cons (args : nsecs_t * nsecs_t * nsecs_t)
      (argss : list (nsecs_t * nsecs_t * nsecs_t)) (self : PredictedVsyncTracer.t) :
  state (PredictedVsyncTracer.invokeAll (args :: argss) self)
  = state (PredictedVsyncTracer.invokeAll argss
             (PredictedVsyncTracer.mk (negb (PredictedVsyncTracer.mParity self))))
  /\ calls (PredictedVsyncTracer.invokeAll (args :: argss) self)
     = Registration_schedule (mkScheduleTiming 0 0 0)
       :: calls (PredictedVsyncTracer.invokeAll argss
                   (PredictedVsyncTracer.mk
                      (negb (PredictedVsyncTracer.mParity self)))).
Proof.
  destruct args as [[a b] c]. unfold PredictedVsyncTracer.invokeAll.
  cbn [mapM]. rewrite !state_bind, !calls_bind. cbn.
  now rewrite !app_nil_r.
Qed.

(** C9: an invocation of the tracer's callback, whatever its three
    timestamps, negates [mParity] and calls [schedule] once on the
    registration, with the timing [{0, 0, 0}]; the constructor registers the
    callback and makes the same [schedule] call.  Hence after [n] invocations
    the parity has flipped [n] times and [n] further invocations have been
    scheduled, one after each. *)
Theorem C9_tracer_flips_and_rearms
  (actual ready deadline : nsecs_t) (self : PredictedVsyncTracer.t) :
  PredictedVsyncTracer.vsyncCallback actual ready deadline self
  = (tt,
     PredictedVsyncTracer.mk (negb (PredictedVsyncTracer.mParity self)),
     [Registration_schedule (mkScheduleTiming 0 0 0)])
  /\ count is_schedule
       (calls (PredictedVsyncTracer.vsyncCallback actual ready deadline self))
     = 1%nat
  /\ PredictedVsyncTracer.new
     = (PredictedVsyncTracer.mk false,
        [Registration_new "PredictedVsyncTracer";
         Registration_schedule (mkScheduleTiming 0 0 0)])
  /\ (forall argss,
        PredictedVsyncTracer.mParity
          (state (PredictedVsyncTracer.invokeAll argss self))
        = xorb (PredictedVsyncTracer.mParity self) (Nat.odd (List.length argss))
        /\ calls (PredictedVsyncTracer.invokeAll argss self)
           = repeat (Registration_schedule (mkScheduleTiming 0 0 0))
                    (List.length argss)).
Proof.
  split; [reflexivity|]. split; [reflexivity|]. split; [reflexivity|].
  intros argss; revert self.
  induction argss as [|args argss IH]; intros self.
  - cbn. now rewrite xorb_false_r.
  - destruct (invokeAll_cons args argss self) as [-> ->].
    destruct (IH (PredictedVsyncTracer.mk
                    (negb (PredictedVsyncTracer.mParity self)))) as [-> ->].
    cbn [List.length repeat PredictedVsyncTracer.mParity].
    split; [|reflexivity].
    rewrite Nat.odd_succ, <- Nat.negb_odd.
    destruct (PredictedVsyncTracer.mParity self), (Nat.odd (List.length argss));
      reflexivity.
Qed.

Example tracer_three_invocations :
  let '(tracer, _) := PredictedVsyncTracer.new in
  PredictedVsyncTracer.invokeAll [(10, 20, 30); (40, 50, 60); (0, -1, 7)] tracer
  = (tt, PredictedVsyncTracer.mk true,
     [Registration_schedule (mkScheduleTiming 0 0 0);
      Registration_schedule (mkScheduleTiming 0 0 0);
      Registration_schedule (mkScheduleTiming 0 0 0)]).
Proof. reflexivity. Qed.

(** ** The default construction path *)

(** C10: the constructor taking feature flags calls
    [setIgnorePresentFences] exactly once, on the reactor it has just
    created, with the negation of [features.test(Feature::kPresentFences)];
    with [kPresentFences] set the argument is [false]. *)
Theorem C10_setIgnorePresentFences_once
  (FeatureFlags : Type) (test : FeatureFlags -> Feature -> bool)
  (kInitialPeriod : nsecs_t) (kInitialLastHwVsyncState : HwVsyncState)
  (id : PhysicalDisplayId) (features : FeatureFlags) :
  let built :=
    construct FeatureFlags test kInitialPeriod kInitialLastHwVsyncState
              id features in
  filter is_setIgnorePresentFences (snd built)
  = [Reactor_setIgnorePresentFences (negb (test features kPresentFences))]
  /\ count is_setIgnorePresentFences (snd built) = 1%nat
  /\ createController FeatureFlags test id features
     = [VSyncReactor_new id 20 (test features kKernelIdleTimer);
        Reactor_setIgnorePresentFences (negb (test features kPresentFences))]
  /\ (test features kPresentFences = true ->
      In (Reactor_setIgnorePresentFences false) (snd built)
      /\ ~ In (Reactor_setIgnorePresentFences true) (snd built)).
Proof.
  unfold construct, count.
  destruct (test features kTracePredictedVsync); cbn;
    (split; [reflexivity|]); (split; [reflexivity|]); (split; [reflexivity|]);
    intros ->; cbn; split; try tauto;
    intros H; decompose [or] H; try discriminate; assumption.
Qed.

Example construct_with_present_fences :
  snd (construct (list Feature) listed 16666666 Disabled 7
                 [kPresentFences; kTracePredictedVsync])
  = [VSyncPredictor_new 7 16666666 20 6 20;
     VSyncDispatchTimerQueue_new 500000 3000000;
     VSyncReactor_new 7 20 false;
     Reactor_setIgnorePresentFences false;
     Registration_new "PredictedVsyncTracer";
     Registration_schedule (mkScheduleTiming 0 0 0)].
Proof. reflexivity. Qed.

Example construct_without_present_fences :
  snd (construct (list Feature) listed 16666666 Disabled 7 [kKernelIdleTimer])
  = [VSyncPredictor_new 7 16666666 20 6 20;
     VSyncDispatchTimerQueue_new 500000 3000000;
     VSyncReactor_new 7 20 true;
     Reactor_setIgnorePresentFences true].
Proof. reflexivity. Qed.

(** * Further properties of the state machine *)

(** ** Helpers on runs *)

Lemma unit_run_eta {St} (r : unit * St * list Call) : r = (tt, state r, calls r).
Proof. destruct r as [[[] s] cs]; reflexivity. Qed.

Lemma run_mId (ops : list Op) (self : t) : mId (state (run ops self)) = mId self.
Proof.
  revert self; induction ops as [|op ops IH]; intros self; [reflexivity|].
  destruct (run_cons op ops self) as [-> _]. now rewrite IH, step_mId.
Qed.

Lemma setVsyncEnabled_args_app (xs ys : list Call) :
  setVsyncEnabled_args (xs ++ ys)
  = setVsyncEnabled_args xs ++ setVsyncEnabled_args ys.
Proof. apply flat_map_app. Qed.

Lemma hardware_after_app (before : bool) (xs ys : list Call) :
  hardware_after before (xs ++ ys)
  = hardware_after (hardware_after before xs) ys.
Proof. apply fold_left_app. Qed.

(** Case analysis on one call and on the state it runs from, everything
    evaluated. *)
Ltac by_step op self :=
  let cb := fresh "cb" in
  destruct op as [cb|cb []| |]; by_state self; cbn.

(** ** The calls the hardware sees *)

(** X1: over any sequence of calls, the [setVsyncEnabled] invocations
    alternate between [true] and [false]; the first one is [false] if the
    schedule starts [Enabled] and [true] otherwise. *)
Theorem setVsyncEnabled_alternates (ops : list Op) (self : t) :
  alternating (negb (HwVsyncState_eqb (mHwVsyncState self) Enabled))
              (setVsyncEnabled_args (calls (run ops self)))
  = true.
Proof.
  revert self; induction ops as [|op ops IH]; intros self; [reflexivity|].
  destruct (run_cons op ops self) as [_ ->].
  rewrite setVsyncEnabled_args_app.
  by_step op self; exact (IH _).
Qed.

(** X2: after any sequence of calls the current state is [Enabled] exactly
    when the last [setVsyncEnabled] invocation had argument [true] (or, if
    none was made, when the schedule started [Enabled]). *)
Theorem Enabled_iff_hardware_told_on (ops : list Op) (self : t) :
  hardware_after (HwVsyncState_eqb (mHwVsyncState self) Enabled)
                 (calls (run ops self))
  = HwVsyncState_eqb (mHwVsyncState (state (run ops self))) Enabled.
Proof.
  revert self; induction ops as [|op ops IH]; intros self; [reflexivity|].
  destruct (run_cons op ops self) as [-> ->].
  rewrite hardware_after_app.
  by_step op self; exact (IH _).
Qed.

(** X3: the log of any sequence of calls is made of the blocks
    [resetModel; setVsyncEnabled(true)] and [setVsyncEnabled(false)]: a model
    reset is always followed at once by a [setVsyncEnabled(true)], and a
    [setVsyncEnabled(true)] is always preceded at once by a model reset. *)
Theorem run_log_paired (ops : list Op) (self : t) :
  paired (calls (run ops self)) = true.
Proof.
  revert self; induction ops as [|op ops IH]; intros self; [reflexivity|].
  destruct (run_cons op ops self) as [_ ->].
  by_step op self; exact (IH _).
Qed.

Lemma explained_cons (id : PhysicalDisplayId) (op : Op) (ops : list Op) (c : Call) :
  explained id ops c -> explained id (op :: ops) c.
Proof.
  destruct c as [|cb id' []| | | | | |]; cbn; try tauto.
  - intros [cb H]; exists cb; now right.
  - intros [-> [d H]]; split; [reflexivity|]. exists d; now right.
Qed.

(** X4: every call in the log of a sequence is a model reset or a
    [setVsyncEnabled]: the state machine never calls the dispatch or the
    reactor.  Each [setVsyncEnabled] carries the schedule's [mId], which no
    call changes, and goes to the callback that was passed to an
    [enableHardwareVsync] of the sequence (argument [true]) or to a
    [disableHardwareVsync] of the sequence (argument [false]). *)
Theorem run_log_explained (ops : list Op) (self : t) :
  Forall (explained (mId self) ops) (calls (run ops self))
  /\ mId (state (run ops self)) = mId self.
Proof.
  split; [|apply run_mId].
  revert self; induction ops as [|op ops IH]; intros self; [constructor|].
  destruct (run_cons op ops self) as [_ ->].
  apply Forall_app; split.
  - by_step op self; repeat constructor;
      solve [ exists cb; now left | exists true; now left | exists false; now left ].
  - specialize (IH (state (step op self))). rewrite step_mId in IH.
    revert IH; apply Forall_impl; intros c; apply explained_cons.
Qed.

(** ** The two state fields *)




(** ** Allowed and disallowed *)

(** X6: from [Disallowed], a sequence made of [enableHardwareVsync],
    [disableHardwareVsync(cb, true)] and [isHardwareVsyncAllowed] calls makes
    no call on any collaborator and leaves the schedule as it was. *)
Theorem Disallowed_run_is_silent (ops : list Op) (self : t) :
  mHwVsyncState self = Disallowed ->
  Forall keeps_Disallowed ops ->
  run ops self = (tt, self, []).
Proof.
  intros Hs Hops; rewrite (unit_run_eta (run ops self)).
  revert self Hs; induction Hops as [|op ops Hop _ IH]; intros self Hs;
    [reflexivity|].
  destruct (run_cons op ops self) as [-> ->].
  assert (Hstep : step op self = (tt, self, [])).
  { destruct self as [id cur last]; cbn in Hs; subst cur.
    destruct op as [cb|cb []| |]; cbn in Hop; try contradiction; reflexivity. }
  rewrite Hstep; cbn [state calls fst snd app]. now apply IH.
Qed.

Lemma Disallowed_run_is_silent_witness :
  run [OpEnable 1%nat; OpDisable 2%nat true; OpIsAllowed; OpEnable 3%nat]
      (mk 7 Disallowed Disabled)
  = (tt, mk 7 Disallowed Disabled, []).
Proof.
  apply (Disallowed_run_is_silent
           [OpEnable 1%nat; OpDisable 2%nat true; OpIsAllowed; OpEnable 3%nat]
           (mk 7 Disallowed Disabled)).
  - reflexivity.
  - repeat constructor.
Defined.

(** X7: what [isHardwareVsyncAllowed()] answers after a sequence of calls
    depends only on the last [disableHardwareVsync] or [allowHardwareVsync]
    of the sequence: the negation of [disallow] after a disable, [true] after
    an allow, and the answer before the sequence if it has neither. *)
Theorem allowed_after_run (ops : list Op) (self : t) :
  result (isHardwareVsyncAllowed (state (run ops self)))
  = allowed_after ops (result (isHardwareVsyncAllowed self)).
Proof.
  revert self; induction ops as [|op ops IH]; intros self; [reflexivity|].
  destruct (run_cons op ops self) as [-> _]. rewrite IH.
  unfold allowed_after; cbn [fold_left]. f_equal.
  by_step op self; reflexivity.
Qed.

(** ** Calls in a row *)

(** X8: [allowHardwareVsync()] followed by [enableHardwareVsync(cb)] always
    ends with the current state [Enabled]; it resets the model and calls
    [setVsyncEnabled(mId, true)] unless the state was [Enabled] already. *)
Theorem allow_then_enable (cb : CallbackRef) (self : t) :
  let r := (allowHardwareVsync ;; enableHardwareVsync cb) self in
  mHwVsyncState (state r) = Enabled
  /\ calls r
     = (if HwVsyncState_eqb (mHwVsyncState self) Enabled then []
        else [Tracker_resetModel; Callback_setVsyncEnabled cb (mId self) true])
  /\ result (isHardwareVsyncAllowed (state r)) = true.
Proof. by_state self; cbn; repeat split. Qed.

(** X9: [disableHardwareVsync(cb1, disallow)] followed by
    [enableHardwareVsync(cb2)].  With [disallow = false] the pair always
    resets the model, ends [Enabled] in both fields, and tells the hardware
    off first if it was on; with [disallow = true] the enable does nothing
    and the pair ends [Disallowed]. *)
Theorem disable_then_enable (cb1 cb2 : CallbackRef) (disallow : bool) (self : t) :
  (disableHardwareVsync cb1 disallow ;; enableHardwareVsync cb2) self
  = (tt,
     (if disallow
      then mk (mId self) Disallowed
              (match mHwVsyncState self with
               | Enabled => Disabled
               | Disabled | Disallowed => mLastHwVsyncState self
               end)
      else mk (mId self) Enabled Enabled),
     (match mHwVsyncState self with
      | Enabled => [Callback_setVsyncEnabled cb1 (mId self) false]
      | Disabled | Disallowed => []
      end)
     ++ (if disallow then []
         else [Tracker_resetModel; Callback_setVsyncEnabled cb2 (mId self) true])).
Proof. destruct disallow; by_state self; reflexivity. Qed.

(** X10: every operation is idempotent, also [disableHardwareVsync(cb, true)]
    and [allowHardwareVsync()]: made twice in a row, the second call makes no
    call on a collaborator and changes no field. *)
Theorem every_call_idempotent (op : Op) (self : t) :
  run [op; op] self = run [op] self
  /\ step op (state (step op self)) = (tt, state (step op self), []).
Proof. by_step op self; split; reflexivity. Qed.

(** ** The tracker's answers *)

Section Tracker.

Context {T : Type} `{VsyncTracker T}.

Lemma replay_app (xs ys : list Call) (tracker : T) :
  replay (xs ++ ys) tracker = replay ys (replay xs tracker).
Proof. apply fold_left_app. Qed.

Lemma replay_step (op : Op) (self : t) (tracker : T) :
  replay (calls (step op self)) tracker
  = if is_enabling (mHwVsyncState self) (mHwVsyncState (state (step op self)))
    then resetModel tracker else tracker.
Proof. by_step op self; reflexivity. Qed.

Lemma iter_resetModel_shift (n : nat) (tracker : T) :
  Nat.iter n resetModel (resetModel tracker)
  = resetModel (Nat.iter n resetModel tracker).
Proof.
  induction n as [|n IH]; [reflexivity|].
  now rewrite !Nat.iter_succ, IH.
Qed.

(** X11: the calls of a sequence reset the tracker once per
    [Disabled]-to-[Enabled] transition and do nothing else to it.  So when no
    such transition happens (only disable, allow and is-allowed calls, or
    enable calls that find the state [Enabled] or [Disallowed]), [period()]
    and [vsyncDeadlineAfter(t)] answer after the sequence what they answered
    before it. *)
Theorem tracker_reset_once_per_enabling (ops : list Op) (self : t) (tracker : T) :
  replay (calls (run ops self)) tracker
  = Nat.iter (enablings (visited ops self)) resetModel tracker
  /\ (enablings (visited ops self) = 0%nat ->
      period (replay (calls (run ops self)) tracker) = period tracker
      /\ forall timePoint,
           vsyncDeadlineAfter (replay (calls (run ops self)) tracker) timePoint
           = vsyncDeadlineAfter tracker timePoint).
Proof.
  assert (E : replay (calls (run ops self)) tracker
              = Nat.iter (enablings (visited ops self)) resetModel tracker).
  { revert self tracker; induction ops as [|op ops IH]; intros self tracker;
      [reflexivity|].
    destruct (run_cons op ops self) as [_ ->].
    unfold enablings in *.
    rewrite replay_app, crossings_visited, IH, replay_step.
    destruct (is_enabling _ _); cbn [Nat.add]; [|reflexivity].
    now rewrite Nat.iter_succ, iter_resetModel_shift. }
  split; [exact E|].
  intros Hnone; rewrite E, Hnone; cbn. split; reflexivity.
Qed.

End Tracker.

Example toy_tracker_period :
  let tracker := mkToy 16666666 16700000 12 in
  let self := mk 7 Enabled Enabled in
  period (replay (calls (run [OpDisable 1%nat true; OpEnable 1%nat; OpAllow] self))
                 tracker)
  = Period_fromNs 16700000
  /\ period (replay (calls (run [OpDisable 1%nat false; OpEnable 1%nat] self))
                    tracker)
     = Period_fromNs 16666666
  /\ vsyncDeadlineAfter tracker (TimePoint_fromNs 1000) = TimePoint_fromNs 16701000.
Proof. repeat split. Qed.

(** ** Construction *)

(** X12: the constructor taking feature flags creates the tracker, the
    dispatch and the reactor once each, in this order, with the constants
    20/6/20, 500us/3ms and 20; it never calls the scheduler callback and
    never resets the model; it builds a tracer, which registers and makes one
    [schedule({0, 0, 0})] call after the reactor is configured, exactly when
    [kTracePredictedVsync] is set; and the state fields of the schedule it
    builds do not depend on the flags (they are those of the constructor
    taking ready-made collaborators). *)
Theorem construct_calls
  (FeatureFlags : Type) (test : FeatureFlags -> Feature -> bool)
  (kInitialPeriod : nsecs_t) (kInitialLastHwVsyncState : HwVsyncState)
  (id : PhysicalDisplayId) (features : FeatureFlags) :
  let built :=
    construct FeatureFlags test kInitialPeriod kInitialLastHwVsyncState
              id features in
  fst (fst built) = inject kInitialLastHwVsyncState id
  /\ snd (fst built)
     = (if test features kTracePredictedVsync
        then Some (PredictedVsyncTracer.mk false) else None)
  /\ snd built
     = [VSyncPredictor_new id kInitialPeriod 20 6 20;
        VSyncDispatchTimerQueue_new 500000 3000000;
        VSyncReactor_new id 20 (test features kKernelIdleTimer);
        Reactor_setIgnorePresentFences (negb (test features kPresentFences))]
       ++ (if test features kTracePredictedVsync
           then [Registration_new "PredictedVsyncTracer";
                 Registration_schedule (mkScheduleTiming 0 0 0)]
           else [])
  /\ count is_setVsyncEnabled (snd built) = 0%nat
  /\ count is_resetModel (snd built) = 0%nat
  /\ count is_schedule (snd built)
     = (if test features kTracePredictedVsync then 1%nat else 0%nat).
Proof.
  unfold construct.
  destruct (test features kTracePredictedVsync); cbn; repeat split.
Qed.

(** ** The states a schedule can be in *)

Lemma step_reachable_shape (id : PhysicalDisplayId) (last0 : HwVsyncState)
      (op : Op) (s : t) :
  reachable_shape id last0 s -> reachable_shape id last0 (state (step op s)).
Proof.
  unfold reachable_shape.
  destruct op as [cb|cb []| |]; destruct s as [id' [] last]; cbn;
    intros [-> Hlast]; (split; [reflexivity|]); auto.
Qed.

(** X13: starting with the current state [Disabled], the states that some
    sequence of calls leads to are exactly those of [reachable_shape]: the
    current state can be any of the three, the last-observed field is
    [Enabled] together with the current state and is otherwise its initial
    value or [Disabled].  In particular [Enabled] with a last-observed value
    other than [Enabled] is never reached. *)
Theorem reachable_states (id : PhysicalDisplayId) (last0 : HwVsyncState) (s : t) :
  reachable (mk id Disabled last0) s <-> reachable_shape id last0 s.
Proof.
  split.
  - intros [ops <-].
    assert (H0 : reachable_shape id last0 (mk id Disabled last0))
      by (split; [reflexivity|now left]).
    revert H0; generalize (mk id Disabled last0) as s0.
    induction ops as [|op ops IH]; intros s0 H0; [exact H0|].
    destruct (run_cons op ops s0) as [-> _].
    now apply IH, step_reachable_shape.
  - destruct s as [id' cur last]; unfold reachable_shape; cbn.
    intros [-> Hlast]; destruct cur.
    + subst last. exists [OpEnable 0%nat]; reflexivity.
    + destruct Hlast as [->| ->].
      * exists []; reflexivity.
      * exists [OpEnable 0%nat; OpDisable 0%nat false]; reflexivity.
    + destruct Hlast as [->| ->].
      * exists [OpDisable 0%nat true]; reflexivity.
      * exists [OpEnable 0%nat; OpDisable 0%nat true]; reflexivity.
Qed.

(** ** The tracer's loop *)

Lemma invokeAll_schedules (argss : list (nsecs_t * nsecs_t * nsecs_t))
      (self : PredictedVsyncTracer.t) :
  count is_schedule (calls (PredictedVsyncTracer.invokeAll argss self))
  = List.length argss.
Proof.
  revert self; induction argss as [|args argss IH]; intros self; [reflexivity|].
  destruct (invokeAll_cons args argss self) as [_ ->].
  unfold count in *; cbn. now rewrite IH.
Qed.

(** X14: from its construction on, the tracer has made exactly one more
    [schedule] call than the dispatch has invoked its callback, whatever the
    timestamps of the invocations: every invocation re-arms once, so the loop
    neither stops by itself nor arms twice.  It registers once, at
    construction, and makes no other kind of call. *)
Theorem tracer_one_schedule_ahead (argss : list (nsecs_t * nsecs_t * nsecs_t)) :
  let tracer := fst PredictedVsyncTracer.new in
  let log := snd PredictedVsyncTracer.new
             ++ calls (PredictedVsyncTracer.invokeAll argss tracer) in
  count is_schedule log = S (List.length argss)
  /\ log = Registration_new "PredictedVsyncTracer"
           :: repeat (Registration_schedule (mkScheduleTiming 0 0 0))
                     (S (List.length argss)).
Proof.
  cbn zeta. split.
  - rewrite count_app, invokeAll_schedules. reflexivity.
  - cbn [PredictedVsyncTracer.new]. cbn. do 2 f_equal.
    generalize (PredictedVsyncTracer.mk false) as self.
    induction argss as [|args argss IH]; intros self; [reflexivity|].
    destruct (invokeAll_cons args argss self) as [_ ->].
    cbn [List.length repeat]. now rewrite IH.
Qed.
